(** * The API gateway of kubernetes-local-dev-series

    A shallow embedding of [services/api-service/app]: the three route
    functions [health_check], [get_users] and [get_user], the pydantic
    models they build, and the parts of httpx and FastAPI that decide
    what a caller of the gateway observes.

    Each route performs one outbound [client.get]; what that call does is
    the input of the model (an [outcome] per timeout and URL).  Exceptions
    are explicit: a computation either returns or raises, and
    [try_except] is Python's [try]/[except]. *)

From Stdlib Require Import ZArith QArith String Ascii List Lia.
From stdpp Require Import base option list gmap strings pretty.

Set Warnings "-register-all".
#[local] Open Scope Z_scope.

(** ** Python values read from JSON

    What [json.loads] produces: [None], [bool], [int], [float], [str],
    [list] and [dict] with string keys.  A float is kept as its literal;
    no route computes with one.  A [str] is a sequence of characters,
    one [ascii] each, so that [String.length] is Python's [len]. *)
Inductive json : Type :=
  | JNull
  | JBool (b : bool)
  | JInt (n : Z)
  | JFloat (literal : string)
  | JStr (s : string)
  | JList (items : list json)
  | JDict (fields : gmap string json).

(** ** Returning and raising *)
Inductive Result (E A : Type) : Type :=
  | Return (a : A)
  | Raise (e : E).
Arguments Return {E A} a.
Arguments Raise {E A} e.

Definition bind {E A B} (m : Result E A) (k : A -> Result E B) : Result E B :=
  match m with
  | Return a => k a
  | Raise e => Raise e
  end.

Notation "x <- m ;; k" := (bind m (fun x => k))
  (at level 100, m at next level, right associativity).

(** [try: body except e: handler e]; an exception raised by the handler
    itself is not caught again. *)
Definition try_except {E F A} (body : Result E A) (handler : E -> Result F A)
  : Result F A :=
  match body with
  | Return a => Return a
  | Raise e => handler e
  end.

(** ** httpx *)
Module httpx.

(** A received response: its status line, its body as text, and what
    [response.json()] does with the body ([inl msg]: it raises
    [JSONDecodeError] whose [str] is [msg]). *)
Record Response : Type := mkResponse {
  status_code : Z;
  text : string;
  json_ : string + json;
}.

(** The subclasses of [httpx.RequestError], the exceptions of a request
    that yields no usable response: timeouts, network errors (a refused
    connection and a failed DNS lookup are both [ConnectError]),
    protocol and proxy errors, and the two raised while a response is
    being followed or decoded. *)
Inductive RequestError : Type :=
  | ConnectTimeout | ReadTimeout | WriteTimeout | PoolTimeout
  | ConnectError | ReadError | WriteError | CloseError
  | LocalProtocolError | RemoteProtocolError
  | ProxyError | UnsupportedProtocol
  | DecodingError | TooManyRedirects.

(** [type(e).__name__] *)
Definition type_name (e : RequestError) : string :=
  match e with
  | ConnectTimeout => "ConnectTimeout"
  | ReadTimeout => "ReadTimeout"
  | WriteTimeout => "WriteTimeout"
  | PoolTimeout => "PoolTimeout"
  | ConnectError => "ConnectError"
  | ReadError => "ReadError"
  | WriteError => "WriteError"
  | CloseError => "CloseError"
  | LocalProtocolError => "LocalProtocolError"
  | RemoteProtocolError => "RemoteProtocolError"
  | ProxyError => "ProxyError"
  | UnsupportedProtocol => "UnsupportedProtocol"
  | DecodingError => "DecodingError"
  | TooManyRedirects => "TooManyRedirects"
  end.

(** [response.is_success] *)
Definition is_success (r : Response) : bool :=
  (200 <=? status_code r) && (status_code r <=? 299).

End httpx.

(** What can be raised inside the [try] block of a route: the two httpx
    exceptions the routes tell apart, and any other exception, given by
    its class name and its [str]. *)
Inductive exn : Type :=
  | HTTPStatusError (response : httpx.Response)
  | RequestError (e : httpx.RequestError)
  | Exception (cls : string) (msg : string).

(** [type(e).__name__] *)
Definition type_name (e : exn) : string :=
  match e with
  | HTTPStatusError _ => "HTTPStatusError"
  | RequestError k => httpx.type_name k
  | Exception cls _ => cls
  end.

(** What one [await client.get(url)] does: it returns a response, it
    raises a [RequestError], or it raises any other exception. *)
Inductive outcome : Type :=
  | Responds (response : httpx.Response)
  | Fails (e : httpx.RequestError)
  | Crashes (cls : string) (msg : string).

(** [httpx.AsyncClient(timeout=t)] seen from the routes: the outcome of
    a GET, by timeout (seconds) and URL. *)
Definition AsyncClient : Type := Q -> string -> outcome.

Definition client_get (client : AsyncClient) (timeout : Q) (url : string)
  : Result exn httpx.Response :=
  match client timeout url with
  | Responds r => Return r
  | Fails e => Raise (RequestError e)
  | Crashes cls msg => Raise (Exception cls msg)
  end.

(** [response.raise_for_status()] *)
Definition raise_for_status (r : httpx.Response) : Result exn unit :=
  if httpx.is_success r then Return tt else Raise (HTTPStatusError r).

(** [response.json()] *)
Definition json_of (r : httpx.Response) : Result exn json :=
  match httpx.json_ r with
  | inr v => Return v
  | inl msg => Raise (Exception "JSONDecodeError" msg)
  end.

(** ** Python builtins the routes rely on *)

(** [type(v).__name__] *)
Definition py_type (v : json) : string :=
  match v with
  | JNull => "NoneType"
  | JBool _ => "bool"
  | JInt _ => "int"
  | JFloat _ => "float"
  | JStr _ => "str"
  | JList _ => "list"
  | JDict _ => "dict"
  end.

(** [for x in v]: a list yields its items, a dict its keys, a str its
    characters; anything else is not iterable. *)
Definition iter (v : json) : Result exn (list json) :=
  match v with
  | JList items => Return items
  | JDict fields => Return (map (fun kv => JStr (fst kv)) (map_to_list fields))
  | JStr s => Return (map (fun c => JStr (String c EmptyString)) (list_ascii_of_string s))
  | _ => Raise (Exception "TypeError" ("'" +:+ py_type v +:+ "' object is not iterable"))
  end.

(** [[f(x) for x in xs]]: left to right, the first exception ends it. *)
Fixpoint comprehension {E A B} (f : A -> Result E B) (xs : list A)
  : Result E (list B) :=
  match xs with
  | [] => Return []
  | x :: rest =>
      y <- f x ;;
      ys <- comprehension f rest ;;
      Return (y :: ys)
  end.

(** What the models take from pydantic and CPython without fixing it:
    how a value that is not an [int] is coerced to one in lax mode, and
    the text of the exceptions that building a model raises.  Every
    result below holds whatever these are. *)
Class Libraries : Type := {
  lax_int : json -> option Z;
  str_ValidationError : gmap string json -> string;
  str_kwargs_TypeError : json -> string;
}.

(** ** app/models.py *)
Module models.

(** [class User(BaseModel)] *)
Record User : Type := mkUser {
  id : Z;
  name : string;
  email : string;
}.

(** [class HealthResponse(BaseModel)]; [data_service_status] is
    [str | None]. *)
Record HealthResponse : Type := mkHealthResponse {
  status : string;
  service : string;
  version : string;
  data_service_status : option string;
}.

(** [class ErrorResponse(BaseModel)] *)
Record ErrorResponse : Type := mkErrorResponse {
  detail : string;
  status_code : Z;
}.

Section Validation.
Context `{Libraries}.

(** A field annotated [int]. *)
Definition validate_int (v : json) : option Z :=
  match v with
  | JInt n => Some n
  | _ => lax_int v
  end.

(** A field annotated [str]. *)
Definition validate_str (v : json) : option string :=
  match v with
  | JStr s => Some s
  | _ => None
  end.

(** [str] with [Field(min_length=.., max_length=..)] *)
Definition validate_str_bounded (min_length max_length : nat) (v : json)
  : option string :=
  match validate_str v with
  | Some s =>
      if (min_length <=? String.length s)%nat && (String.length s <=? max_length)%nat
      then Some s else None
  | None => None
  end.

(** A required field ([Field(...)]): absent, it fails validation. *)
Definition required {A} (validate : json -> option A)
    (data : gmap string json) (key : string) : option A :=
  match data !! key with
  | Some v => validate v
  | None => None
  end.

(** The validation of [User]'s three fields; keys that are not
    fields are ignored. *)
Definition User_validate (data : gmap string json) : option User :=
  match required validate_int data "id",
        required (validate_str_bounded 1 100) data "name",
        required validate_str data "email" with
  | Some i, Some n, Some e => Some (mkUser i n e)
  | _, _, _ => None
  end.

(** The call of [User] with the items of [kwargs] as keyword arguments:
    [kwargs] must be a mapping, and its items must validate. *)
Definition User_init (kwargs : json) : Result exn User :=
  match kwargs with
  | JDict data =>
      match User_validate data with
      | Some u => Return u
      | None => Raise (Exception "ValidationError" (str_ValidationError data))
      end
  | _ => Raise (Exception "TypeError" (str_kwargs_TypeError kwargs))
  end.

End Validation.

(** The JSON a model is sent as. *)
Definition User_json (u : User) : json :=
  JDict {[ "id" := JInt (id u); "name" := JStr (name u); "email" := JStr (email u) ]}.

Definition HealthResponse_json (h : HealthResponse) : json :=
  JDict {[ "status" := JStr (status h);
           "service" := JStr (service h);
           "version" := JStr (version h);
           "data_service_status" :=
             match data_service_status h with
             | Some s => JStr s
             | None => JNull
             end ]}.

Definition ErrorResponse_json (e : ErrorResponse) : json :=
  JDict {[ "detail" := JStr (detail e); "status_code" := JInt (status_code e) ]}.

End models.

(** ** app/config.py *)
Module config.

Record Settings : Type := mkSettings {
  data_service_url : string;
  port : Z;
  log_level : string;
  app_name : string;
  app_version : string;
  description : string;
}.

(** The defaults, used when the environment sets nothing. *)
Definition settings : Settings := {|
  data_service_url := "http://data-service:8080";
  port := 8000;
  log_level := "INFO";
  app_name := "API Service";
  app_version := "0.1.0";
  description := "Python FastAPI service for Kubernetes local development";
|}.

End config.

(** ** FastAPI: from a route's result to the HTTP response *)
Module fastapi.

(** [HTTPException(status_code=.., detail=..)] *)
Record HTTPException : Type := mkHTTPException {
  status_code : Z;
  detail : string;
}.

Inductive Body : Type :=
  | NoBody
  | Json (v : json).

Record HTTPResponse : Type := mkHTTPResponse {
  http_status : Z;
  body : Body;
}.

Definition is_body_allowed_for_status_code (code : Z) : bool :=
  negb ((code <? 200) || (code =? 204) || (code =? 205) || (code =? 304)).

(** The handler FastAPI installs for [HTTPException]; the application
    registers no other. *)
Definition http_exception_handler (exc : HTTPException) : HTTPResponse :=
  if is_body_allowed_for_status_code (status_code exc)
  then mkHTTPResponse (status_code exc) (Json (JDict {[ "detail" := JStr (detail exc) ]}))
  else mkHTTPResponse (status_code exc) NoBody.

(** A route declared with [status_code=status.HTTP_200_OK]: its return
    value is sent as JSON with status 200, an [HTTPException] goes to
    the handler. *)
Definition respond {A} (encode : A -> json) (result : Result HTTPException A)
  : HTTPResponse :=
  match result with
  | Return a => mkHTTPResponse 200 (Json (encode a))
  | Raise exc => http_exception_handler exc
  end.

End fastapi.

(** ** app/routers/health.py *)
Module health.

Definition health_check (settings : config.Settings) (client : AsyncClient)
  : models.HealthResponse :=
  let data_service_status := "unknown" in
  let data_service_status :=
    match
      response <- client_get client 2.0 (config.data_service_url settings +:+ "/actuator/health") ;;
      Return (if httpx.status_code response =? 200
              then "connected"
              else "unhealthy (status: " +:+ pretty (httpx.status_code response) +:+ ")")
    with
    | Return s => s
    | Raise (RequestError e) => "unreachable (" +:+ httpx.type_name e +:+ ")"
    | Raise e => "error (" +:+ type_name e +:+ ")"
    end in
  {| models.status := "healthy";
     models.service := config.app_name settings;
     models.version := config.app_version settings;
     models.data_service_status := Some data_service_status |}.

(** [GET /api/health] *)
Definition route (settings : config.Settings) (client : AsyncClient)
  : fastapi.HTTPResponse :=
  fastapi.respond models.HealthResponse_json (Return (health_check settings client)).

End health.

(** ** app/routers/users.py *)
Module users.
Section Routes.
Context `{Libraries}.

Definition get_users (settings : config.Settings) (client : AsyncClient)
  : Result fastapi.HTTPException (list models.User) :=
  try_except
    (response <- client_get client 5.0 (config.data_service_url settings +:+ "/data/users") ;;
     _ <- raise_for_status response ;;
     users_data <- json_of response ;;
     items <- iter users_data ;;
     comprehension models.User_init items)
    (fun e =>
       match e with
       | HTTPStatusError response =>
           Raise (fastapi.mkHTTPException (httpx.status_code response)
                    ("Data service error: " +:+ httpx.text response))
       | RequestError e =>
           Raise (fastapi.mkHTTPException 503
                    ("Data service unavailable: " +:+ httpx.type_name e))
       | Exception _ msg =>
           Raise (fastapi.mkHTTPException 500 ("Internal error: " +:+ msg))
       end).

Definition get_user (settings : config.Settings) (client : AsyncClient) (user_id : Z)
  : Result fastapi.HTTPException models.User :=
  try_except
    (response <- client_get client 5.0
                   (config.data_service_url settings +:+ "/data/users/" +:+ pretty user_id) ;;
     _ <- raise_for_status response ;;
     user_data <- json_of response ;;
     models.User_init user_data)
    (fun e =>
       match e with
       | HTTPStatusError response =>
           if httpx.status_code response =? 404
           then Raise (fastapi.mkHTTPException 404
                         ("User with ID " +:+ pretty user_id +:+ " not found"))
           else Raise (fastapi.mkHTTPException (httpx.status_code response)
                         ("Data service error: " +:+ httpx.text response))
       | RequestError e =>
           Raise (fastapi.mkHTTPException 503
                    ("Data service unavailable: " +:+ httpx.type_name e))
       | Exception _ msg =>
           Raise (fastapi.mkHTTPException 500 ("Internal error: " +:+ msg))
       end).

(** [GET /api/users] and [GET /api/users/{user_id}] *)
Definition route_users (settings : config.Settings) (client : AsyncClient)
  : fastapi.HTTPResponse :=
  fastapi.respond (fun us => JList (map models.User_json us)) (get_users settings client).

Definition route_user (settings : config.Settings) (client : AsyncClient) (user_id : Z)
  : fastapi.HTTPResponse :=
  fastapi.respond models.User_json (get_user settings client user_id).

End Routes.
End users.

(** ** Vocabulary of the statements *)

(** The URLs the routes request. *)
Definition health_url (settings : config.Settings) : string :=
  config.data_service_url settings +:+ "/actuator/health".
Definition users_url (settings : config.Settings) : string :=
  config.data_service_url settings +:+ "/data/users".
Definition user_url (settings : config.Settings) (user_id : Z) : string :=
  config.data_service_url settings +:+ "/data/users/" +:+ pretty user_id.

(** The three exceptions the user routes raise besides the upstream's
    own status. *)
Definition internal_error (msg : string) : fastapi.HTTPException :=
  fastapi.mkHTTPException 500 ("Internal error: " +:+ msg).
Definition unavailable (e : httpx.RequestError) : fastapi.HTTPException :=
  fastapi.mkHTTPException 503 ("Data service unavailable: " +:+ httpx.type_name e).
Definition upstream_error (r : httpx.Response) : fastapi.HTTPException :=
  fastapi.mkHTTPException (httpx.status_code r) ("Data service error: " +:+ httpx.text r).
Definition not_found (user_id : Z) : fastapi.HTTPException :=
  fastapi.mkHTTPException 404 ("User with ID " +:+ pretty user_id +:+ " not found").

(** The rest of the [try] block of [get_users] once [raise_for_status]
    has passed. *)
Definition decode_users `{Libraries} (r : httpx.Response) : Result exn (list models.User) :=
  users_data <- json_of r ;;
  items <- iter users_data ;;
  comprehension models.User_init items.

(** The same for [get_user]. *)
Definition decode_user `{Libraries} (r : httpx.Response) : Result exn models.User :=
  user_data <- json_of r ;;
  models.User_init user_data.

(** Every run of a user route ends in one of five ways. *)
Inductive users_ending {A} (result : Result fastapi.HTTPException A) : outcome -> Prop :=
  | ends_Return r a :
      httpx.is_success r = true -> result = Return a ->
      users_ending result (Responds r)
  | ends_internal_body r msg :
      httpx.is_success r = true -> result = Raise (internal_error msg) ->
      users_ending result (Responds r)
  | ends_status r exc :
      httpx.is_success r = false -> result = Raise exc ->
      fastapi.status_code exc = httpx.status_code r ->
      users_ending result (Responds r)
  | ends_unavailable e :
      result = Raise (unavailable e) ->
      users_ending result (Fails e)
  | ends_internal cls msg :
      result = Raise (internal_error msg) ->
      users_ending result (Crashes cls msg).

(** An upstream that does the same whatever is asked of it. *)
Definition always (o : outcome) : AsyncClient := fun _ _ => o.

(** One choice of [Libraries], to run the routes on examples: only an
    [int] is taken for an [int], and the messages are short. *)
Definition sample_libraries : Libraries := {|
  lax_int := fun _ => None;
  str_ValidationError := fun _ => "1 validation error for User";
  str_kwargs_TypeError := fun v => "argument must be a mapping, not " +:+ py_type v;
|}.

(** A JSON object of the User shape, and the [User] it describes: an
    integer [id], a [name] of 1 to 100 characters, an [email]. *)
Definition has_user_shape (v : json) (u : models.User) : Prop :=
  exists data,
    v = JDict data /\
    data !! "id" = Some (JInt (models.id u)) /\
    data !! "name" = Some (JStr (models.name u)) /\
    data !! "email" = Some (JStr (models.email u)) /\
    (1 <= String.length (models.name u) <= 100)%nat.


(** What every [User] the gateway hands out satisfies (its [id] is an
    integer by its type). *)
Definition well_formed (u : models.User) : Prop :=
  (1 <= String.length (models.name u) <= 100)%nat.

(** The four cases of the upstream health call. *)
Inductive health_case : Type := Connected | Unhealthy | Unreachable | Errored.

Definition in_health_case (o : outcome) (c : health_case) : Prop :=
  match c with
  | Connected => exists r, o = Responds r /\ httpx.status_code r = 200
  | Unhealthy => exists r, o = Responds r /\ httpx.status_code r <> 200
  | Unreachable => exists e, o = Fails e
  | Errored => exists cls msg, o = Crashes cls msg
  end.

(** Upstream answers used in the examples: the two users of the tests,
    and a user whose name is empty. *)
Definition two_users_response : httpx.Response :=
  httpx.mkResponse 200 "[...]"
    (inr (JList
       [ JDict {[ "id" := JInt 1; "name" := JStr "John Doe";
                  "email" := JStr "john@example.com" ]};
         JDict {[ "id" := JInt 2; "name" := JStr "Jane Smith";
                  "email" := JStr "jane@example.com" ]} ])).


(** Upstream answers with an error status: the service is overloaded,
    the route does not exist. *)
Definition busy_response : httpx.Response :=
  httpx.mkResponse 503 "Service Unavailable" (inl "Expecting value").

Definition missing_response : httpx.Response :=
  httpx.mkResponse 404 "no such route" (inl "Expecting value").

(** The detail field of a response's JSON body, when it has one. *)
Definition detail_of (response : fastapi.HTTPResponse) : option string :=
  match fastapi.body response with
  | fastapi.Json (JDict fields) =>
      match fields !! "detail" with
      | Some (JStr s) => Some s
      | _ => None
      end
  | _ => None
  end.

(** The values that [for x in v] cannot iterate. *)
Definition scalar (v : json) : Prop :=
  match v with
  | JNull | JBool _ | JInt _ | JFloat _ => True
  | JStr _ | JList _ | JDict _ => False
  end.

(** An upstream answer that describes a user and carries a field the
    model does not know. *)
Definition user_with_role : gmap string json :=
  {[ "id" := JInt 7; "name" := JStr "Ann"; "email" := JStr "ann@example.com";
     "role" := JStr "admin" ]}.


(** * Properties *)

(** ** The exception plumbing *)

Lemma bind_Return_inv {E A B} (m : Result E A) (k : A -> Result E B) (b : B) :
  bind m k = Return b -> exists a, m = Return a /\ k a = Return b.
Proof. destruct m as [a|e]; simpl; [eauto | discriminate]. Qed.

Lemma bind_Raise_inv {E A B} (m : Result E A) (k : A -> Result E B) (e : E) :
  bind m k = Raise e -> m = Raise e \/ exists a, m = Return a /\ k a = Raise e.
Proof. destruct m as [a|e']; simpl; [eauto | intros [= ->]; auto]. Qed.

(** A comprehension returns exactly when every item is accepted, and
    then item by item, in order. *)
Lemma comprehension_Return {E A B} (f : A -> Result E B) xs ys :
  comprehension f xs = Return ys <-> Forall2 (fun x y => f x = Return y) xs ys.
Proof.
  revert ys. induction xs as [|x xs IH]; intros ys; simpl.
  - split.
    + intros [= <-]. constructor.
    + intros Hall. inversion Hall. reflexivity.
  - split.
    + intros Hb. apply bind_Return_inv in Hb as (y & Hy & Hb).
      apply bind_Return_inv in Hb as (ys' & Hys & [= <-]).
      constructor; [exact Hy | apply IH, Hys].
    + intros Hall. inversion Hall as [|? y ? ys' Hy Hrest]; subst.
      rewrite Hy. simpl. apply IH in Hrest. rewrite Hrest. reflexivity.
Qed.

(** It raises what the first rejected item raised. *)
Lemma comprehension_Raise {E A B} (f : A -> Result E B) xs e :
  comprehension f xs = Raise e <->
  exists pre x post ys,
    xs = pre ++ x :: post /\ Forall2 (fun x y => f x = Return y) pre ys /\ f x = Raise e.
Proof.
  revert e. induction xs as [|x xs IH]; intros e; simpl.
  - split; [discriminate|]. intros (pre & ? & ? & ? & Hnil & _).
    destruct pre; discriminate.
  - split.
    + intros Hb. apply bind_Raise_inv in Hb as [Hx | (y & Hy & Hb)].
      * exists [], x, xs, []. repeat split; [constructor | exact Hx].
      * apply bind_Raise_inv in Hb as [Hr | (? & _ & [=])].
        apply IH in Hr as (pre & x' & post & ys & -> & Hpre & Hx').
        exists (x :: pre), x', post, (y :: ys).
        repeat split; [constructor; assumption | exact Hx'].
    + intros (pre & x' & post & ys & Heq & Hpre & Hx').
      destruct pre as [|p pre]; simpl in Heq; injection Heq as -> ->.
      * rewrite Hx'. reflexivity.
      * inversion Hpre as [|? y ? ys' Hy Hrest]; subst. rewrite Hy. simpl.
        assert (Hr : comprehension f (pre ++ x' :: post) = Raise e)
          by (apply IH; eauto 8).
        rewrite Hr. reflexivity.
Qed.


(** ** What FastAPI sends *)

Lemma http_exception_handler_status exc :
  fastapi.http_status (fastapi.http_exception_handler exc) = fastapi.status_code exc.
Proof.
  unfold fastapi.http_exception_handler.
  destruct (fastapi.is_body_allowed_for_status_code _); reflexivity.
Qed.

Lemma respond_Raise_status {A} (encode : A -> json) exc :
  fastapi.http_status (fastapi.respond encode (Raise exc)) = fastapi.status_code exc.
Proof. apply http_exception_handler_status. Qed.

Lemma is_body_allowed_error_status code :
  400 <= code -> fastapi.is_body_allowed_for_status_code code = true.
Proof. unfold fastapi.is_body_allowed_for_status_code. lia. Qed.

Lemma is_success_spec r :
  httpx.is_success r = true <-> 200 <= httpx.status_code r <= 299.
Proof. unfold httpx.is_success. lia. Qed.

(** ** The routes, outcome by outcome *)

Section RouteFacts.
Context `{Libraries}.
Variable settings : config.Settings.
Variable client : AsyncClient.

Lemma User_init_Raise v e :
  models.User_init v = Raise e -> exists cls msg, e = Exception cls msg.
Proof.
  unfold models.User_init.
  destruct v; try (intros [= <-]; eauto).
  destruct (models.User_validate fields); [discriminate | intros [= <-]; eauto].
Qed.

Lemma iter_Raise v e : iter v = Raise e -> exists cls msg, e = Exception cls msg.
Proof. destruct v; simpl; try discriminate; intros [= <-]; eauto. Qed.

(** *** [get_users] *)

Lemma get_users_Fails e :
  client 5.0%Q (users_url settings) = Fails e ->
  users.get_users settings client = Raise (unavailable e).
Proof.
  intros Hc. unfold users.get_users, client_get. fold (users_url settings).
  rewrite Hc. reflexivity.
Qed.

Lemma get_users_Crashes cls msg :
  client 5.0%Q (users_url settings) = Crashes cls msg ->
  users.get_users settings client = Raise (internal_error msg).
Proof.
  intros Hc. unfold users.get_users, client_get. fold (users_url settings).
  rewrite Hc. reflexivity.
Qed.

Lemma get_users_error_status r :
  client 5.0%Q (users_url settings) = Responds r ->
  httpx.is_success r = false ->
  users.get_users settings client = Raise (upstream_error r).
Proof.
  intros Hc Hs. unfold users.get_users, client_get, raise_for_status.
  fold (users_url settings). rewrite Hc. simpl. rewrite Hs. reflexivity.
Qed.

Lemma decode_users_Raise r e :
  decode_users r = Raise e -> exists cls msg, e = Exception cls msg.
Proof.
  intros Hb. apply bind_Raise_inv in Hb as [Hj | (v & _ & Hb)].
  - unfold json_of in Hj.
    destruct (httpx.json_ r); [injection Hj as <-; eauto | discriminate].
  - apply bind_Raise_inv in Hb as [Hi | (items & _ & Hb)].
    + eapply iter_Raise, Hi.
    + apply comprehension_Raise in Hb as (? & x & ? & ? & _ & _ & Hx).
      eapply User_init_Raise, Hx.
Qed.

Lemma get_users_try r :
  client 5.0%Q (users_url settings) = Responds r ->
  httpx.is_success r = true ->
  users.get_users settings client =
    match decode_users r with
    | Return us => Return us
    | Raise (HTTPStatusError r') => Raise (upstream_error r')
    | Raise (RequestError e) => Raise (unavailable e)
    | Raise (Exception _ msg) => Raise (internal_error msg)
    end.
Proof.
  intros Hc Hs. unfold users.get_users, client_get, raise_for_status.
  fold (users_url settings). rewrite Hc. simpl. rewrite Hs. reflexivity.
Qed.

Lemma get_users_Return r us :
  client 5.0%Q (users_url settings) = Responds r ->
  httpx.is_success r = true ->
  decode_users r = Return us ->
  users.get_users settings client = Return us.
Proof. intros Hc Hs Hd. rewrite (get_users_try r Hc Hs), Hd. reflexivity. Qed.

Lemma get_users_internal r e :
  client 5.0%Q (users_url settings) = Responds r ->
  httpx.is_success r = true ->
  decode_users r = Raise e ->
  exists cls msg,
    e = Exception cls msg /\
    users.get_users settings client = Raise (internal_error msg).
Proof.
  intros Hc Hs Hd. rewrite (get_users_try r Hc Hs), Hd.
  apply decode_users_Raise in Hd as (cls & msg & ->). eauto.
Qed.

End RouteFacts.

Section UserRouteFacts.
Context `{Libraries}.
Variable settings : config.Settings.
Variable client : AsyncClient.
Variable user_id : Z.

(** *** [get_user] *)

Lemma decode_user_Raise r e :
  decode_user r = Raise e -> exists cls msg, e = Exception cls msg.
Proof.
  intros Hb. apply bind_Raise_inv in Hb as [Hj | (v & _ & Hb)].
  - unfold json_of in Hj.
    destruct (httpx.json_ r); [injection Hj as <-; eauto | discriminate].
  - eapply User_init_Raise, Hb.
Qed.

Lemma get_user_Fails e :
  client 5.0%Q (user_url settings user_id) = Fails e ->
  users.get_user settings client user_id = Raise (unavailable e).
Proof.
  intros Hc. unfold users.get_user, client_get. fold (user_url settings user_id).
  rewrite Hc. reflexivity.
Qed.

Lemma get_user_Crashes cls msg :
  client 5.0%Q (user_url settings user_id) = Crashes cls msg ->
  users.get_user settings client user_id = Raise (internal_error msg).
Proof.
  intros Hc. unfold users.get_user, client_get. fold (user_url settings user_id).
  rewrite Hc. reflexivity.
Qed.

Lemma get_user_404 r :
  client 5.0%Q (user_url settings user_id) = Responds r ->
  httpx.status_code r = 404 ->
  users.get_user settings client user_id = Raise (not_found user_id).
Proof.
  intros Hc Hs. unfold users.get_user, client_get, raise_for_status, httpx.is_success.
  fold (user_url settings user_id). rewrite Hc. simpl. rewrite Hs. simpl.
  rewrite Hs. reflexivity.
Qed.

Lemma get_user_error_status r :
  client 5.0%Q (user_url settings user_id) = Responds r ->
  httpx.is_success r = false ->
  httpx.status_code r <> 404 ->
  users.get_user settings client user_id = Raise (upstream_error r).
Proof.
  intros Hc Hs Hn. unfold users.get_user, client_get, raise_for_status.
  fold (user_url settings user_id). rewrite Hc. simpl. rewrite Hs. simpl.
  destruct (Z.eqb_spec (httpx.status_code r) 404); [contradiction | reflexivity].
Qed.

Lemma get_user_try r :
  client 5.0%Q (user_url settings user_id) = Responds r ->
  httpx.is_success r = true ->
  users.get_user settings client user_id =
    match decode_user r with
    | Return u => Return u
    | Raise (HTTPStatusError r') =>
        if httpx.status_code r' =? 404
        then Raise (not_found user_id) else Raise (upstream_error r')
    | Raise (RequestError e) => Raise (unavailable e)
    | Raise (Exception _ msg) => Raise (internal_error msg)
    end.
Proof.
  intros Hc Hs. unfold users.get_user, client_get, raise_for_status.
  fold (user_url settings user_id). rewrite Hc. simpl. rewrite Hs. reflexivity.
Qed.

Lemma get_user_Return r u :
  client 5.0%Q (user_url settings user_id) = Responds r ->
  httpx.is_success r = true ->
  decode_user r = Return u ->
  users.get_user settings client user_id = Return u.
Proof. intros Hc Hs Hd. rewrite (get_user_try r Hc Hs), Hd. reflexivity. Qed.

Lemma get_user_internal r e :
  client 5.0%Q (user_url settings user_id) = Responds r ->
  httpx.is_success r = true ->
  decode_user r = Raise e ->
  exists cls msg,
    e = Exception cls msg /\
    users.get_user settings client user_id = Raise (internal_error msg).
Proof.
  intros Hc Hs Hd. rewrite (get_user_try r Hc Hs), Hd.
  apply decode_user_Raise in Hd as (cls & msg & ->). eauto.
Qed.

End UserRouteFacts.

Lemma get_users_ending `{Libraries} settings client :
  users_ending (users.get_users settings client) (client 5.0%Q (users_url settings)).
Proof.
  destruct (client 5.0%Q (users_url settings)) as [r|e|cls msg] eqn:Hc.
  - destruct (httpx.is_success r) eqn:Hs.
    + destruct (decode_users r) as [us|e] eqn:Hd.
      * eapply ends_Return; [exact Hs | eapply get_users_Return; eauto].
      * destruct (get_users_internal _ _ _ _ Hc Hs Hd) as (? & msg & _ & Hg).
        eapply ends_internal_body; eauto.
    + eapply ends_status; [exact Hs | eapply get_users_error_status; eauto | reflexivity].
  - apply ends_unavailable, get_users_Fails, Hc.
  - apply ends_internal, get_users_Crashes with (cls := cls), Hc.
Qed.

Lemma get_user_ending `{Libraries} settings client user_id :
  users_ending (users.get_user settings client user_id)
               (client 5.0%Q (user_url settings user_id)).
Proof.
  destruct (client 5.0%Q (user_url settings user_id)) as [r|e|cls msg] eqn:Hc.
  - destruct (httpx.is_success r) eqn:Hs.
    + destruct (decode_user r) as [u|e] eqn:Hd.
      * eapply ends_Return; [exact Hs | eapply get_user_Return; eauto].
      * destruct (get_user_internal _ _ _ _ _ Hc Hs Hd) as (? & msg & _ & Hg).
        eapply ends_internal_body; eauto.
    + destruct (Z.eq_dec (httpx.status_code r) 404) as [E|N].
      * eapply ends_status; [exact Hs | eapply get_user_404; eauto | symmetry; exact E].
      * eapply ends_status; [exact Hs | eapply get_user_error_status; eauto | reflexivity].
  - apply ends_unavailable, get_user_Fails, Hc.
  - apply ends_internal, get_user_Crashes with (cls := cls), Hc.
Qed.

(** ** The health check *)

Lemma health_check_status settings client :
  models.data_service_status (health.health_check settings client) =
    Some match client 2.0%Q (health_url settings) with
         | Responds r =>
             if httpx.status_code r =? 200 then "connected"
             else "unhealthy (status: " +:+ pretty (httpx.status_code r) +:+ ")"
         | Fails e => "unreachable (" +:+ httpx.type_name e +:+ ")"
         | Crashes cls _ => "error (" +:+ cls +:+ ")"
         end.
Proof.
  unfold health.health_check, client_get. fold (health_url settings).
  destruct (client 2.0%Q (health_url settings)); reflexivity.
Qed.

Lemma health_case_exists (o : outcome) : exists c, in_health_case o c.
Proof.
  destruct o as [r|e|cls msg].
  - destruct (Z.eq_dec (httpx.status_code r) 200).
    + exists Connected. simpl. eauto.
    + exists Unhealthy. simpl. eauto.
  - exists Unreachable. simpl. eauto.
  - exists Errored. simpl. eauto.
Qed.

Lemma health_case_unique (o : outcome) c c' :
  in_health_case o c -> in_health_case o c' -> c = c'.
Proof.
  destruct c, c'; simpl; try reflexivity;
    intros Hc Hc'; exfalso;
    repeat match goal with
           | H : exists _, _ |- _ => destruct H
           | H : _ /\ _ |- _ => destruct H
           end; subst; try discriminate;
    match goal with
    | H : Responds _ = Responds _ |- _ => injection H as ->; contradiction
    end.
Qed.

(** C1. Whatever the upstream health call does (it answers 200, it
    answers another status, the request fails, anything else is raised),
    GET /api/health answers 200 and the body's status field is
    healthy: the result of the upstream call only shows in
    data_service_status. *)
Theorem health_always_200_healthy (settings : config.Settings) (client : AsyncClient) :
  fastapi.http_status (health.route settings client) = 200 /\
  models.status (health.health_check settings client) = "healthy" /\
  exists fields,
    fastapi.body (health.route settings client) = fastapi.Json (JDict fields) /\
    fields !! "status" = Some (JStr "healthy") /\
    fields !! "data_service_status" =
      option_map JStr (models.data_service_status (health.health_check settings client)).
Proof.
  split; [reflexivity|]. split; [reflexivity|].
  eexists. split; [reflexivity|].
  rewrite health_check_status. split; reflexivity.
Qed.

(** C8. data_service_status is connected when the upstream answers 200,
    unhealthy (status: code) when it answers any other status,
    unreachable (kind) when the request fails with an httpx.RequestError
    of that kind, and error (kind) when anything else is raised; every
    upstream outcome falls in exactly one of these four cases. *)
Theorem health_data_service_status (settings : config.Settings) (client : AsyncClient) :
  (forall r, client 2.0%Q (health_url settings) = Responds r ->
             httpx.status_code r = 200 ->
             models.data_service_status (health.health_check settings client)
               = Some "connected") /\
  (forall r, client 2.0%Q (health_url settings) = Responds r ->
             httpx.status_code r <> 200 ->
             models.data_service_status (health.health_check settings client)
               = Some ("unhealthy (status: " +:+ pretty (httpx.status_code r) +:+ ")")) /\
  (forall e, client 2.0%Q (health_url settings) = Fails e ->
             models.data_service_status (health.health_check settings client)
               = Some ("unreachable (" +:+ httpx.type_name e +:+ ")")) /\
  (forall cls msg, client 2.0%Q (health_url settings) = Crashes cls msg ->
             models.data_service_status (health.health_check settings client)
               = Some ("error (" +:+ cls +:+ ")")) /\
  (exists c, in_health_case (client 2.0%Q (health_url settings)) c /\
             forall c', in_health_case (client 2.0%Q (health_url settings)) c' -> c' = c).
Proof.
  repeat split.
  - intros r Hc Hs. rewrite health_check_status, Hc, Hs. reflexivity.
  - intros r Hc Hs. rewrite health_check_status, Hc.
    destruct (Z.eqb_spec (httpx.status_code r) 200); [contradiction | reflexivity].
  - intros e Hc. rewrite health_check_status, Hc. reflexivity.
  - intros cls msg Hc. rewrite health_check_status, Hc. reflexivity.
  - destruct (health_case_exists (client 2.0%Q (health_url settings))) as [c Hc].
    exists c. split; [exact Hc|].
    intros c' Hc'. eapply health_case_unique; eassumption.
Qed.

Lemma health_data_service_status_witness :
  models.data_service_status
    (health.health_check config.settings (always (Fails httpx.ConnectError)))
  = Some "unreachable (ConnectError)".
Proof.
  exact (proj1 (proj2 (proj2 (health_data_service_status config.settings
                                (always (Fails httpx.ConnectError)))))
           httpx.ConnectError eq_refl).
Defined.

(** ** The user routes *)

(** The status a caller sees, by the way the route ended. *)
Lemma users_ending_status {A} (encode : A -> json)
    (result : Result fastapi.HTTPException A) (o : outcome) :
  users_ending result o ->
  match o with
  | Responds r =>
      if httpx.is_success r
      then fastapi.http_status (fastapi.respond encode result) = 200 \/
           fastapi.http_status (fastapi.respond encode result) = 500
      else fastapi.http_status (fastapi.respond encode result) = httpx.status_code r
  | Fails _ => fastapi.http_status (fastapi.respond encode result) = 503
  | Crashes _ _ => fastapi.http_status (fastapi.respond encode result) = 500
  end.
Proof.
  intros [r a Hs ->|r msg Hs ->|r exc Hs -> Hexc|e ->|cls msg ->];
    rewrite ?Hs, ?respond_Raise_status; auto.
Qed.

Lemma not_success_404 r : httpx.status_code r = 404 -> httpx.is_success r = false.
Proof. unfold httpx.is_success. intros ->. reflexivity. Qed.

(** C2. For every integer id, GET /api/users/id answers 404 exactly
    when the upstream GET of /data/users/id answered with status 404;
    the detail is then User with ID id not found, and a 404 with that
    detail is answered in no other case. *)
Theorem get_user_404_iff `{Libraries} (settings : config.Settings)
    (client : AsyncClient) (user_id : Z) :
  (fastapi.http_status (users.route_user settings client user_id) = 404 <->
   exists r, client 5.0%Q (user_url settings user_id) = Responds r /\
             httpx.status_code r = 404) /\
  (fastapi.http_status (users.route_user settings client user_id) = 404 /\
   detail_of (users.route_user settings client user_id) =
     Some ("User with ID " +:+ pretty user_id +:+ " not found")
   <->
   exists r, client 5.0%Q (user_url settings user_id) = Responds r /\
             httpx.status_code r = 404).
Proof.
  assert (Hto : fastapi.http_status (users.route_user settings client user_id) = 404 ->
                exists r, client 5.0%Q (user_url settings user_id) = Responds r /\
                          httpx.status_code r = 404).
  { intros Hst.
    pose proof (users_ending_status models.User_json _ _
                  (get_user_ending settings client user_id)) as He.
    fold (users.route_user settings client user_id) in He.
    destruct (client 5.0%Q (user_url settings user_id)) as [r|e|cls msg].
    - exists r. split; [reflexivity|].
      destruct (httpx.is_success r); [destruct He; lia | lia].
    - lia.
    - lia. }
  assert (Hfrom : (exists r, client 5.0%Q (user_url settings user_id) = Responds r /\
                             httpx.status_code r = 404) ->
                  users.route_user settings client user_id =
                    fastapi.http_exception_handler (not_found user_id)).
  { intros (r & Hc & Hs). unfold users.route_user.
    rewrite (get_user_404 _ _ _ r Hc Hs). reflexivity. }
  split; split; auto.
  - intros Hex. rewrite (Hfrom Hex). reflexivity.
  - intros [Hst _]. auto.
  - intros Hex. rewrite (Hfrom Hex). split; reflexivity.
Qed.

(** The body FastAPI sends for an [HTTPException] is empty or the
    object with the single key detail. *)
Lemma http_exception_body exc fields :
  fastapi.body (fastapi.http_exception_handler exc) = fastapi.Json (JDict fields) ->
  fields = {[ "detail" := JStr (fastapi.detail exc) ]}.
Proof.
  unfold fastapi.http_exception_handler.
  destruct (fastapi.is_body_allowed_for_status_code _); simpl; [|discriminate].
  intros [= <-]. reflexivity.
Qed.

Lemma http_exception_body_allowed exc :
  fastapi.is_body_allowed_for_status_code (fastapi.status_code exc) = true ->
  fastapi.http_exception_handler exc =
    fastapi.mkHTTPResponse (fastapi.status_code exc)
      (fastapi.Json (JDict {[ "detail" := JStr (fastapi.detail exc) ]})).
Proof. unfold fastapi.http_exception_handler. intros ->. reflexivity. Qed.

Lemma detail_of_handler exc :
  fastapi.is_body_allowed_for_status_code (fastapi.status_code exc) = true ->
  detail_of (fastapi.http_exception_handler exc) = Some (fastapi.detail exc).
Proof. intros Hb. rewrite (http_exception_body_allowed exc Hb). reflexivity. Qed.

(** C6. When the upstream answers GET /data/users/id with an error
    status other than 404 (any status outside 2xx), get_user raises an
    HTTPException that carries the upstream's status code and whose
    detail embeds the upstream's body text; the caller receives that
    status code, and (for every status that may carry a body, so for
    all of 4xx and 5xx) that detail in the JSON body. *)
Theorem get_user_passes_upstream_error `{Libraries} (settings : config.Settings)
    (client : AsyncClient) (user_id : Z) (r : httpx.Response) :
  client 5.0%Q (user_url settings user_id) = Responds r ->
  httpx.is_success r = false ->
  httpx.status_code r <> 404 ->
  users.get_user settings client user_id =
    Raise (fastapi.mkHTTPException (httpx.status_code r)
             ("Data service error: " +:+ httpx.text r)) /\
  fastapi.http_status (users.route_user settings client user_id) = httpx.status_code r /\
  (fastapi.is_body_allowed_for_status_code (httpx.status_code r) = true ->
   detail_of (users.route_user settings client user_id) =
     Some ("Data service error: " +:+ httpx.text r)) /\
  (400 <= httpx.status_code r ->
   fastapi.is_body_allowed_for_status_code (httpx.status_code r) = true).
Proof.
  intros Hc Hs Hn.
  pose proof (get_user_error_status settings client user_id r Hc Hs Hn) as Hg.
  unfold users.route_user. rewrite Hg. repeat split.
  - apply respond_Raise_status.
  - intros Hb. apply (detail_of_handler (upstream_error r) Hb).
  - apply is_body_allowed_error_status.
Qed.

Lemma get_user_passes_upstream_error_witness :
  users.get_user (H := sample_libraries) config.settings
    (always (Responds (httpx.mkResponse 500 "database down" (inl "Expecting value")))) 7 =
    Raise (fastapi.mkHTTPException 500 "Data service error: database down") /\
  fastapi.http_status
    (users.route_user (H := sample_libraries) config.settings
       (always (Responds (httpx.mkResponse 500 "database down" (inl "Expecting value")))) 7)
    = 500.
Proof.
  pose proof (get_user_passes_upstream_error (H := sample_libraries) config.settings
                (always (Responds (httpx.mkResponse 500 "database down" (inl "Expecting value"))))
                7 _ eq_refl eq_refl ltac:(simpl; lia)) as (Hg & Hst & _).
  split; [exact Hg | exact Hst].
Defined.

(** C10. The translation of an upstream 404 into the not-found message
    is get_user's alone: when the upstream answers GET /data/users with
    404, get_users passes the 404 through as an upstream error whose
    detail embeds the upstream's body text, and that detail is the
    not-found message of no id. *)
Theorem get_users_404_passes_through `{Libraries} (settings : config.Settings)
    (client : AsyncClient) (r : httpx.Response) :
  client 5.0%Q (users_url settings) = Responds r ->
  httpx.status_code r = 404 ->
  users.get_users settings client =
    Raise (fastapi.mkHTTPException 404 ("Data service error: " +:+ httpx.text r)) /\
  fastapi.http_status (users.route_users settings client) = 404 /\
  detail_of (users.route_users settings client) =
    Some ("Data service error: " +:+ httpx.text r) /\
  forall user_id : Z,
    "Data service error: " +:+ httpx.text r <> "User with ID " +:+ pretty user_id +:+ " not found".
Proof.
  intros Hc Hs.
  pose proof (get_users_error_status settings client r Hc (not_success_404 r Hs)) as Hg.
  unfold upstream_error in Hg. rewrite Hs in Hg.
  unfold users.route_users. rewrite Hg. repeat split.
  intros user_id. simpl. discriminate.
Qed.

Lemma get_users_404_passes_through_witness :
  detail_of (users.route_users (H := sample_libraries) config.settings
               (always (Responds missing_response))) =
    Some "Data service error: no such route".
Proof.
  exact (proj1 (proj2 (proj2 (get_users_404_passes_through (H := sample_libraries)
                                config.settings (always (Responds missing_response))
                                missing_response eq_refl eq_refl)))).
Defined.

(** C3 (what the code does at the claim's scenario). The upstream
    answers GET /data/users/999 with 404: GET /api/users/999 answers 404
    and its body is the object with the single key detail; it has no
    status_code key, so it is not the ErrorResponse that the route
    declares for 404.  The same holds of every HTTPException the routes
    raise: the body FastAPI sends for one never has a status_code key. *)
Theorem not_found_body_lacks_status_code `{Libraries} (settings : config.Settings) :
  users.route_user settings (always (Responds (httpx.mkResponse 404 "User not found"
                                                 (inl "Expecting value")))) 999 =
    fastapi.mkHTTPResponse 404
      (fastapi.Json (JDict {[ "detail" := JStr "User with ID 999 not found" ]})) /\
  JDict {[ "detail" := JStr "User with ID 999 not found" ]} <>
    models.ErrorResponse_json (models.mkErrorResponse "User with ID 999 not found" 404) /\
  (forall exc fields,
     fastapi.body (fastapi.http_exception_handler exc) = fastapi.Json (JDict fields) ->
     fields !! "status_code" = None).
Proof.
  split; [|split].
  - unfold users.route_user.
    rewrite (get_user_404 settings _ 999
               (httpx.mkResponse 404 "User not found" (inl "Expecting value"))
               eq_refl eq_refl).
    reflexivity.
  - unfold models.ErrorResponse_json. intros Heq.
    apply (f_equal (fun v => match v with
                             | JDict m => m !! "status_code"
                             | _ => None
                             end)) in Heq.
    vm_compute in Heq. discriminate.
  - intros exc fields Hb. rewrite (http_exception_body exc fields Hb). reflexivity.
Qed.

(** ** Validation of the upstream's users *)

Section ValidationFacts.
Context `{Libraries}.

Lemma has_user_shape_accepted v u :
  has_user_shape v u -> models.User_init v = Return u.
Proof.
  intros (data & -> & Hid & Hname & Hemail & Hmin & Hmax).
  unfold models.User_init, models.User_validate, models.required,
    models.validate_str_bounded.
  rewrite Hid, Hname, Hemail. cbn [models.validate_int models.validate_str].
  apply Nat.leb_le in Hmin. apply Nat.leb_le in Hmax.
  rewrite Hmin, Hmax. simpl. destruct u. reflexivity.
Qed.

Lemma User_validate_well_formed data u :
  models.User_validate data = Some u -> well_formed u.
Proof.
  unfold models.User_validate, models.required, models.validate_str_bounded.
  destruct (data !! "id") as [vi|]; [|discriminate].
  destruct (models.validate_int vi) as [i|]; [|discriminate].
  destruct (data !! "name") as [vn|]; [|discriminate].
  destruct (models.validate_str vn) as [n|]; [|discriminate].
  destruct ((1 <=? String.length n)%nat && (String.length n <=? 100)%nat) eqn:Hlen;
    [|discriminate].
  destruct (data !! "email") as [ve|]; [|discriminate].
  destruct (models.validate_str ve) as [e|]; [|discriminate].
  intros [= <-]. unfold well_formed. simpl.
  apply andb_true_iff in Hlen as [Hmin Hmax].
  apply Nat.leb_le in Hmin. apply Nat.leb_le in Hmax. auto.
Qed.

Lemma User_init_well_formed v u :
  models.User_init v = Return u -> well_formed u.
Proof.
  unfold models.User_init. destruct v; try discriminate.
  destruct (models.User_validate fields) as [u'|] eqn:Hv; [|discriminate].
  intros [= <-]. eapply User_validate_well_formed, Hv.
Qed.



Lemma decode_users_list r items :
  httpx.json_ r = inr (JList items) ->
  decode_users r = comprehension models.User_init items.
Proof. intros Hj. unfold decode_users, json_of. rewrite Hj. reflexivity. Qed.


Lemma decode_user_well_formed r u :
  decode_user r = Return u -> well_formed u.
Proof.
  intros Hd. apply bind_Return_inv in Hd as (v & _ & Hd).
  eapply User_init_well_formed, Hd.
Qed.


End ValidationFacts.

(** C4. When the upstream answers GET /data/users with a 2xx status and
    a JSON array whose elements are objects of the User shape, get_users
    returns the users they describe, one per element and in the order
    of the array (the empty array gives the empty list), and the caller
    receives them as a JSON array with status 200. *)
Theorem get_users_preserves_order_and_count `{Libraries} (settings : config.Settings)
    (client : AsyncClient) (r : httpx.Response)
    (items : list json) (us : list models.User) :
  client 5.0%Q (users_url settings) = Responds r ->
  httpx.is_success r = true ->
  httpx.json_ r = inr (JList items) ->
  Forall2 has_user_shape items us ->
  users.get_users settings client = Return us /\
  length us = length items /\
  (forall i item, nth_error items i = Some item ->
                  exists u, nth_error us i = Some u /\ has_user_shape item u) /\
  users.route_users settings client =
    fastapi.mkHTTPResponse 200 (fastapi.Json (JList (map models.User_json us))).
Proof.
  intros Hc Hs Hj Hshape.
  assert (Hg : users.get_users settings client = Return us).
  { apply (get_users_Return settings client r us Hc Hs).
    rewrite (decode_users_list r items Hj). apply comprehension_Return.
    clear Hj. induction Hshape as [|item u items us Hu _ IH]; [constructor|].
    constructor; [apply has_user_shape_accepted, Hu | exact IH]. }
  split; [exact Hg|]. split; [|split].
  - symmetry. clear Hg Hj. induction Hshape; simpl; congruence.
  - clear Hg Hj. induction Hshape as [|item u items us Hu _ IH]; intros i x Hi.
    + destruct i; discriminate.
    + destruct i as [|i]; simpl in *; [injection Hi as <-; eauto | eauto].
  - unfold users.route_users. rewrite Hg. reflexivity.
Qed.

Lemma get_users_preserves_order_and_count_witness :
  users.get_users (H := sample_libraries) config.settings (always (Responds two_users_response))
  = Return [ models.mkUser 1 "John Doe" "john@example.com";
             models.mkUser 2 "Jane Smith" "jane@example.com" ].
Proof.
  refine (proj1 (get_users_preserves_order_and_count (H := sample_libraries)
                   config.settings (always (Responds two_users_response))
                   two_users_response
                   [ JDict {[ "id" := JInt 1; "name" := JStr "John Doe";
                              "email" := JStr "john@example.com" ]};
                     JDict {[ "id" := JInt 2; "name" := JStr "Jane Smith";
                              "email" := JStr "jane@example.com" ]} ]
                   [ models.mkUser 1 "John Doe" "john@example.com";
                     models.mkUser 2 "Jane Smith" "jane@example.com" ]
                   eq_refl eq_refl eq_refl _)).
  repeat constructor; eexists; (split; [reflexivity|]); simpl; repeat split; lia.
Defined.




(** ** The status codes of the user routes *)

Lemma not_success_503 r : httpx.status_code r = 503 -> httpx.is_success r = false.
Proof. unfold httpx.is_success. intros ->. reflexivity. Qed.

Lemma users_ending_503 {A} (encode : A -> json)
    (result : Result fastapi.HTTPException A) (o : outcome) :
  users_ending result o ->
  fastapi.http_status (fastapi.respond encode result) = 503 <->
  (exists e, o = Fails e) \/ (exists r, o = Responds r /\ httpx.status_code r = 503).
Proof.
  intros He. pose proof (users_ending_status encode result o He) as Hst.
  destruct o as [r|e|cls msg].
  - split.
    + intros H503. right. exists r. split; [reflexivity|].
      destruct (httpx.is_success r); [destruct Hst; lia | lia].
    + intros [[e [=]] | (r' & [= <-] & H503)].
      rewrite (not_success_503 r H503) in Hst. lia.
  - split; [eauto | intros _; exact Hst].
  - split; [lia | intros [[e [=]] | (r' & [=] & _)]].
Qed.

(** C5, as the code has it. Either user route answers 503 exactly when
    the upstream request fails with an httpx.RequestError (a refused
    connection, a failed DNS lookup, a timeout: no response reaches the
    route) or the upstream itself answers with status 503, which is
    passed through; every RequestError, a timeout like any other,
    becomes the same HTTPException 503 naming the error's class. *)
Theorem users_503_iff `{Libraries} (settings : config.Settings)
    (client : AsyncClient) (user_id : Z) :
  (fastapi.http_status (users.route_users settings client) = 503 <->
   (exists e, client 5.0%Q (users_url settings) = Fails e) \/
   (exists r, client 5.0%Q (users_url settings) = Responds r /\
              httpx.status_code r = 503)) /\
  (fastapi.http_status (users.route_user settings client user_id) = 503 <->
   (exists e, client 5.0%Q (user_url settings user_id) = Fails e) \/
   (exists r, client 5.0%Q (user_url settings user_id) = Responds r /\
              httpx.status_code r = 503)) /\
  (forall e, client 5.0%Q (users_url settings) = Fails e ->
     users.get_users settings client =
       Raise (fastapi.mkHTTPException 503
                ("Data service unavailable: " +:+ httpx.type_name e))) /\
  (forall e, client 5.0%Q (user_url settings user_id) = Fails e ->
     users.get_user settings client user_id =
       Raise (fastapi.mkHTTPException 503
                ("Data service unavailable: " +:+ httpx.type_name e))).
Proof.
  split; [|split; [|split]].
  - apply users_ending_503, get_users_ending.
  - apply users_ending_503, get_user_ending.
  - intros e Hc. apply (get_users_Fails settings client e Hc).
  - intros e Hc. apply (get_user_Fails settings client user_id e Hc).
Qed.

Lemma users_503_iff_witness :
  users.get_user (H := sample_libraries) config.settings
    (always (Fails httpx.ReadTimeout)) 1 =
    Raise (fastapi.mkHTTPException 503 "Data service unavailable: ReadTimeout").
Proof.
  exact (proj2 (proj2 (proj2 (users_503_iff (H := sample_libraries) config.settings
                                (always (Fails httpx.ReadTimeout)) 1)))
           httpx.ReadTimeout eq_refl).
Defined.

(** C5 as stated fails: the upstream answers GET /data/users with
    status 503; no request failed, and GET /api/users answers 503. *)
Lemma users_503_without_transport_failure :
  ~ (fastapi.http_status
       (users.route_users (H := sample_libraries) config.settings
          (always (Responds busy_response))) = 503 <->
     exists e, always (Responds busy_response) 5.0%Q (users_url config.settings) = Fails e).
Proof.
  intros [Hto _]. destruct Hto as [e He]; [reflexivity | discriminate He].
Qed.

(** C7, as the code has it. GET /api/users answers 200 with a JSON array
    of users, or 503 after a failed request, or 500 after any other
    exception (a body that does not validate included), or, when the
    upstream answers with a status outside 2xx, that status, passed
    through by the HTTPException handler. *)
Theorem get_users_responses `{Libraries} (settings : config.Settings)
    (client : AsyncClient) :
  (exists us,
     users.route_users settings client =
       fastapi.mkHTTPResponse 200 (fastapi.Json (JList (map models.User_json us)))) \/
  (exists e,
     client 5.0%Q (users_url settings) = Fails e /\
     fastapi.http_status (users.route_users settings client) = 503 /\
     detail_of (users.route_users settings client) =
       Some ("Data service unavailable: " +:+ httpx.type_name e)) \/
  (exists msg,
     fastapi.http_status (users.route_users settings client) = 500 /\
     detail_of (users.route_users settings client) = Some ("Internal error: " +:+ msg)) \/
  (exists r,
     client 5.0%Q (users_url settings) = Responds r /\
     httpx.is_success r = false /\
     fastapi.http_status (users.route_users settings client) = httpx.status_code r /\
     users.route_users settings client =
       fastapi.http_exception_handler
         (fastapi.mkHTTPException (httpx.status_code r)
            ("Data service error: " +:+ httpx.text r))).
Proof.
  pose proof (get_users_ending settings client) as He. unfold users.route_users.
  destruct (client 5.0%Q (users_url settings)) as [r|e|cls msg] eqn:Hc.
  - destruct (httpx.is_success r) eqn:Hs.
    + inversion He as [r' us _ Hg|r' msg _ Hg|r' exc Hs' _ _| |]; subst.
      * left. exists us. rewrite Hg. reflexivity.
      * right. right. left. exists msg. rewrite Hg. split; reflexivity.
      * congruence.
    + right. right. right. exists r.
      rewrite (get_users_error_status settings client r Hc Hs).
      split; [reflexivity|]. split; [exact Hs|].
      split; [apply respond_Raise_status | reflexivity].
  - right. left. exists e. split; [reflexivity|].
    rewrite (get_users_Fails settings client e Hc). split; reflexivity.
  - right. right. left. exists msg.
    rewrite (get_users_Crashes settings client cls msg Hc). split; reflexivity.
Qed.

(** C7 as stated fails: the upstream answers GET /data/users with
    status 404, and GET /api/users answers 404, which is none of 200,
    503 and 500. *)
Lemma get_users_answers_404 :
  ~ (fastapi.http_status
       (users.route_users (H := sample_libraries) config.settings
          (always (Responds missing_response))) = 200 \/
     fastapi.http_status
       (users.route_users (H := sample_libraries) config.settings
          (always (Responds missing_response))) = 503 \/
     fastapi.http_status
       (users.route_users (H := sample_libraries) config.settings
          (always (Responds missing_response))) = 500).
Proof.
  assert (Hst : fastapi.http_status
                  (users.route_users (H := sample_libraries) config.settings
                     (always (Responds missing_response))) = 404) by reflexivity.
  rewrite Hst. lia.
Qed.

(** ** The repository's tests, replayed *)

(** tests/test_users.py and tests/test_health.py make [client.get] raise
    a plain [Exception("Connection refused")]: that is no RequestError,
    so both user routes answer 500 with the message as detail, and the
    health check reports error (Exception) in a 200. *)
Example plain_exception_is_500 :
  users.route_users (H := sample_libraries) config.settings
    (always (Crashes "Exception" "Connection refused")) =
    fastapi.mkHTTPResponse 500
      (fastapi.Json (JDict {[ "detail" := JStr "Internal error: Connection refused" ]})) /\
  users.route_user (H := sample_libraries) config.settings
    (always (Crashes "Exception" "Connection refused")) 1 =
    fastapi.mkHTTPResponse 500
      (fastapi.Json (JDict {[ "detail" := JStr "Internal error: Connection refused" ]})) /\
  fastapi.http_status
    (health.route config.settings (always (Crashes "Exception" "Connection refused"))) = 200 /\
  models.data_service_status
    (health.health_check config.settings (always (Crashes "Exception" "Connection refused")))
  = Some "error (Exception)".
Proof. repeat split. Qed.

(** test_get_users_empty_list: an empty upstream array gives 200 and an
    empty array. *)
Example empty_list_is_200 `{Libraries} (settings : config.Settings) :
  users.route_users settings (always (Responds (httpx.mkResponse 200 "[]" (inr (JList []))))) =
    fastapi.mkHTTPResponse 200 (fastapi.Json (JList [])).
Proof.
  unfold users.route_users.
  rewrite (get_users_Return settings _ (httpx.mkResponse 200 "[]" (inr (JList []))) []
             eq_refl eq_refl eq_refl).
  reflexivity.
Qed.

(** [get_users] returns exactly when the body is iterable and every
    item is accepted by [User]; the users come one per item, in the
    items' order. *)
Lemma get_users_Return_iff `{Libraries} (settings : config.Settings)
    (client : AsyncClient) (us : list models.User) :
  users.get_users settings client = Return us <->
  exists r v items,
    client 5.0%Q (users_url settings) = Responds r /\
    httpx.is_success r = true /\
    httpx.json_ r = inr v /\
    iter v = Return items /\
    Forall2 (fun item u => models.User_init item = Return u) items us.
Proof.
  split.
  - intros Hg. pose proof (get_users_ending settings client) as He.
    destruct (client 5.0%Q (users_url settings)) as [r|e|cls msg] eqn:Hc;
      inversion He; subst; try congruence.
    destruct (decode_users r) as [us'|e] eqn:Hd.
    + rewrite (get_users_Return settings client r us' Hc) in Hg by assumption.
      injection Hg as <-.
      apply bind_Return_inv in Hd as (v & Hv & Hd).
      apply bind_Return_inv in Hd as (items & Hi & Hd).
      apply comprehension_Return in Hd.
      exists r, v, items. repeat split; try assumption.
      unfold json_of in Hv. destruct (httpx.json_ r); [discriminate | congruence].
    + destruct (get_users_internal settings client r e Hc) as (_ & ? & _ & Hg');
        try assumption. congruence.
  - intros (r & v & items & Hc & Hs & Hj & Hi & Hall).
    apply (get_users_Return settings client r us Hc Hs).
    unfold decode_users, json_of. rewrite Hj. cbn [bind]. rewrite Hi. cbn [bind].
    apply comprehension_Return, Hall.
Qed.

(** ** More on the user routes *)

(** [get_user] returns exactly when the upstream answered 2xx with a
    JSON object that validates as a [User]; any other body never
    yields a user. *)
Theorem get_user_Return_iff `{Libraries} (settings : config.Settings)
    (client : AsyncClient) (user_id : Z) (u : models.User) :
  users.get_user settings client user_id = Return u <->
  exists r data,
    client 5.0%Q (user_url settings user_id) = Responds r /\
    httpx.is_success r = true /\
    httpx.json_ r = inr (JDict data) /\
    models.User_validate data = Some u.
Proof.
  split.
  - intros Hg. pose proof (get_user_ending settings client user_id) as He.
    destruct (client 5.0%Q (user_url settings user_id)) as [r|e|cls msg] eqn:Hc;
      inversion He; subst; try congruence.
    destruct (decode_user r) as [u'|e] eqn:Hd.
    + rewrite (get_user_Return settings client user_id r u' Hc) in Hg by assumption.
      injection Hg as <-.
      apply bind_Return_inv in Hd as (v & Hv & Hd).
      unfold json_of in Hv. destruct (httpx.json_ r) as [msg|v'] eqn:Hj; [discriminate|].
      injection Hv as ->. unfold models.User_init in Hd.
      destruct v; try discriminate.
      destruct (models.User_validate fields) as [u''|] eqn:Hval; [|discriminate].
      injection Hd as <-. exists r, fields. auto.
    + destruct (get_user_internal settings client user_id r e Hc) as (_ & ? & _ & Hg');
        try assumption. congruence.
  - intros (r & data & Hc & Hs & Hj & Hval).
    apply (get_user_Return settings client user_id r u Hc Hs).
    unfold decode_user, json_of, models.User_init. rewrite Hj. cbn [bind].
    rewrite Hval. reflexivity.
Qed.

(** Every response of GET /api/users/id: 200 with the user, 404 with
    the not-found detail after an upstream 404, 503 after a failed
    request, 500 after any other exception, or the upstream's own
    status after any other status outside 2xx. *)
Theorem get_user_responses `{Libraries} (settings : config.Settings)
    (client : AsyncClient) (user_id : Z) :
  (exists u,
     well_formed u /\
     users.route_user settings client user_id =
       fastapi.mkHTTPResponse 200 (fastapi.Json (models.User_json u))) \/
  (exists r,
     client 5.0%Q (user_url settings user_id) = Responds r /\
     httpx.status_code r = 404 /\
     fastapi.http_status (users.route_user settings client user_id) = 404 /\
     detail_of (users.route_user settings client user_id) =
       Some ("User with ID " +:+ pretty user_id +:+ " not found")) \/
  (exists e,
     client 5.0%Q (user_url settings user_id) = Fails e /\
     fastapi.http_status (users.route_user settings client user_id) = 503 /\
     detail_of (users.route_user settings client user_id) =
       Some ("Data service unavailable: " +:+ httpx.type_name e)) \/
  (exists msg,
     fastapi.http_status (users.route_user settings client user_id) = 500 /\
     detail_of (users.route_user settings client user_id) =
       Some ("Internal error: " +:+ msg)) \/
  (exists r,
     client 5.0%Q (user_url settings user_id) = Responds r /\
     httpx.is_success r = false /\
     httpx.status_code r <> 404 /\
     fastapi.http_status (users.route_user settings client user_id) = httpx.status_code r /\
     users.route_user settings client user_id =
       fastapi.http_exception_handler
         (fastapi.mkHTTPException (httpx.status_code r)
            ("Data service error: " +:+ httpx.text r))).
Proof.
  unfold users.route_user.
  destruct (client 5.0%Q (user_url settings user_id)) as [r|e|cls msg] eqn:Hc.
  - destruct (httpx.is_success r) eqn:Hs.
    + destruct (decode_user r) as [u|e] eqn:Hd.
      * left. exists u. split; [eapply decode_user_well_formed, Hd|].
        rewrite (get_user_Return settings client user_id r u Hc Hs Hd). reflexivity.
      * destruct (get_user_internal settings client user_id r e Hc Hs Hd)
          as (_ & msg & _ & Hg).
        right. right. right. left. exists msg. rewrite Hg. split; reflexivity.
    + destruct (Z.eq_dec (httpx.status_code r) 404) as [H404|Hn].
      * right. left. exists r.
        rewrite (get_user_404 settings client user_id r Hc H404).
        repeat split; assumption || reflexivity.
      * right. right. right. right. exists r.
        rewrite (get_user_error_status settings client user_id r Hc Hs Hn).
        split; [reflexivity|]. split; [exact Hs|]. split; [exact Hn|].
        split; [apply respond_Raise_status | reflexivity].
  - right. right. left. exists e. split; [reflexivity|].
    rewrite (get_user_Fails settings client user_id e Hc). split; reflexivity.
  - right. right. right. left. exists msg.
    rewrite (get_user_Crashes settings client user_id cls msg Hc). split; reflexivity.
Qed.

(** ** The User model *)

Lemma User_json_shape (u : models.User) :
  well_formed u -> has_user_shape (models.User_json u) u.
Proof.
  intros Hw. exists {[ "id" := JInt (models.id u); "name" := JStr (models.name u);
                       "email" := JStr (models.email u) ]}.
  split; [reflexivity|]. repeat split; try reflexivity; apply Hw.
Qed.

(** Sending a user and reading it back gives the same user, exactly
    when its name has 1 to 100 characters; so a list of users that the
    gateway sent is read back whole, in order. *)
Theorem User_json_round_trip `{Libraries} (u : models.User) (us : list models.User) :
  (models.User_init (models.User_json u) = Return u <-> well_formed u) /\
  (comprehension models.User_init (map models.User_json us) = Return us <->
   Forall well_formed us).
Proof.
  split.
  - split; [apply User_init_well_formed|].
    intros Hw. apply has_user_shape_accepted, User_json_shape, Hw.
  - rewrite comprehension_Return. split.
    + intros Hall. remember (map models.User_json us) as items eqn:Hitems.
      clear Hitems. induction Hall as [|item u' items us' Hu _ IH]; constructor;
        [eapply User_init_well_formed, Hu | exact IH].
    + intros Hall. induction Hall as [|u' us' Hw _ IH]; simpl; constructor;
        [apply has_user_shape_accepted, User_json_shape, Hw | exact IH].
Qed.

(** A key other than id, name and email changes nothing to the
    validation of an upstream object, and no user is sent with such a
    key: unknown upstream fields are not forwarded. *)
Theorem unknown_fields_ignored `{Libraries} (data : gmap string json)
    (k : string) (v : json) :
  k <> "id" -> k <> "name" -> k <> "email" ->
  models.User_validate (<[ k := v ]> data) = models.User_validate data /\
  forall u fields, models.User_json u = JDict fields -> fields !! k = None.
Proof.
  intros Hid Hname Hemail. split.
  - unfold models.User_validate, models.required.
    rewrite !lookup_insert_ne by congruence. reflexivity.
  - intros u fields [= <-].
    rewrite !lookup_insert_ne by congruence. apply lookup_singleton_ne. congruence.
Qed.

Lemma unknown_fields_ignored_witness :
  models.User_validate (H := sample_libraries) user_with_role =
    Some (models.mkUser 7 "Ann" "ann@example.com").
Proof.
  change user_with_role with
    (<[ "role" := JStr "admin" ]>
       ({[ "id" := JInt 7; "name" := JStr "Ann"; "email" := JStr "ann@example.com" ]}
        : gmap string json)).
  rewrite (proj1 (unknown_fields_ignored (H := sample_libraries)
                    {[ "id" := JInt 7; "name" := JStr "Ann";
                       "email" := JStr "ann@example.com" ]}
                    "role" (JStr "admin")
                    ltac:(discriminate) ltac:(discriminate) ltac:(discriminate))).
  reflexivity.
Defined.

(** ** What a 2xx answer is read for *)

(** After any 2xx status the user routes decide on the decoded body
    and nothing else: for two upstream answers with 2xx statuses (200
    and 201, say) and the same decoded body the gateway answers with
    the same status, and whenever that status is 200 with the same
    response, whatever the upstream's status codes and body texts.
    (The details of the 500s are not compared: their text is the
    libraries' and may show the upstream object in the order of its
    keys.) *)
Theorem success_reads_body_only `{Libraries} (settings : config.Settings)
    (client client' : AsyncClient) (user_id : Z) (r r' : httpx.Response) :
  httpx.is_success r = true ->
  httpx.is_success r' = true ->
  httpx.json_ r = httpx.json_ r' ->
  (client 5.0%Q (users_url settings) = Responds r ->
   client' 5.0%Q (users_url settings) = Responds r' ->
   fastapi.http_status (users.route_users settings client) =
     fastapi.http_status (users.route_users settings client') /\
   (fastapi.http_status (users.route_users settings client) = 200 ->
    users.route_users settings client = users.route_users settings client') /\
   (forall us, users.get_users settings client = Return us <->
               users.get_users settings client' = Return us)) /\
  (client 5.0%Q (user_url settings user_id) = Responds r ->
   client' 5.0%Q (user_url settings user_id) = Responds r' ->
   fastapi.http_status (users.route_user settings client user_id) =
     fastapi.http_status (users.route_user settings client' user_id) /\
   (fastapi.http_status (users.route_user settings client user_id) = 200 ->
    users.route_user settings client user_id =
      users.route_user settings client' user_id) /\
   (forall u, users.get_user settings client user_id = Return u <->
              users.get_user settings client' user_id = Return u)).
Proof.
  intros Hs Hs' Hj. split; intros Hc Hc'.
  - assert (Hg : users.get_users settings client = users.get_users settings client').
    { rewrite (get_users_try settings client r Hc Hs),
              (get_users_try settings client' r' Hc' Hs').
      unfold decode_users, json_of. rewrite Hj. reflexivity. }
    unfold users.route_users. rewrite Hg. repeat split; auto.
  - assert (Hg : users.get_user settings client user_id =
                 users.get_user settings client' user_id).
    { rewrite (get_user_try settings client user_id r Hc Hs),
              (get_user_try settings client' user_id r' Hc' Hs').
      unfold decode_user, json_of. rewrite Hj. reflexivity. }
    unfold users.route_user. rewrite Hg. repeat split; auto.
Qed.

Lemma success_reads_body_only_witness :
  users.route_users (H := sample_libraries) config.settings
    (always (Responds two_users_response)) =
  users.route_users (H := sample_libraries) config.settings
    (always (Responds (httpx.mkResponse 201 "created" (httpx.json_ two_users_response)))).
Proof.
  exact (proj1 (proj2 (proj1 (success_reads_body_only (H := sample_libraries)
                  config.settings
                  (always (Responds two_users_response))
                  (always (Responds (httpx.mkResponse 201 "created"
                                       (httpx.json_ two_users_response))))
                  1 two_users_response
                  (httpx.mkResponse 201 "created" (httpx.json_ two_users_response))
                  eq_refl eq_refl eq_refl)
           eq_refl eq_refl)) eq_refl).
Defined.

(** The list is all or nothing: when the items before one are accepted
    and that one is rejected, get_users raises the 500 whose detail is
    that item's message, whatever follows it; no partial list is
    returned. *)
Theorem get_users_first_rejection `{Libraries} (settings : config.Settings)
    (client : AsyncClient) (r : httpx.Response)
    (pre post : list json) (bad : json) (ys : list models.User) (cls msg : string) :
  client 5.0%Q (users_url settings) = Responds r ->
  httpx.is_success r = true ->
  httpx.json_ r = inr (JList (pre ++ bad :: post)) ->
  Forall2 (fun item u => models.User_init item = Return u) pre ys ->
  models.User_init bad = Raise (Exception cls msg) ->
  users.get_users settings client =
    Raise (fastapi.mkHTTPException 500 ("Internal error: " +:+ msg)).
Proof.
  intros Hc Hs Hj Hpre Hbad.
  rewrite (get_users_try settings client r Hc Hs),
          (decode_users_list r _ Hj).
  assert (Hr : comprehension models.User_init (pre ++ bad :: post)
               = Raise (Exception cls msg)).
  { apply comprehension_Raise. exists pre, bad, post, ys. auto. }
  rewrite Hr. reflexivity.
Qed.

Lemma get_users_first_rejection_witness :
  users.get_users (H := sample_libraries) config.settings
    (always (Responds (httpx.mkResponse 200 "[...]"
       (inr (JList ([ JDict {[ "id" := JInt 1; "name" := JStr "John Doe";
                               "email" := JStr "john@example.com" ]} ]
                    ++ JInt 3 :: [ JNull ])))))) =
    Raise (fastapi.mkHTTPException 500 "Internal error: argument must be a mapping, not int").
Proof.
  refine (get_users_first_rejection (H := sample_libraries) config.settings
            (always (Responds (httpx.mkResponse 200 "[...]"
               (inr (JList ([ JDict {[ "id" := JInt 1; "name" := JStr "John Doe";
                                       "email" := JStr "john@example.com" ]} ]
                            ++ JInt 3 :: [ JNull ]))))))
            (httpx.mkResponse 200 "[...]"
               (inr (JList ([ JDict {[ "id" := JInt 1; "name" := JStr "John Doe";
                                       "email" := JStr "john@example.com" ]} ]
                            ++ JInt 3 :: [ JNull ]))))
            [ JDict {[ "id" := JInt 1; "name" := JStr "John Doe";
                       "email" := JStr "john@example.com" ]} ]
            [ JNull ] (JInt 3)
            [ models.mkUser 1 "John Doe" "john@example.com" ]
            "TypeError" "argument must be a mapping, not int"
            eq_refl eq_refl eq_refl _ eq_refl).
  repeat constructor.
Defined.

(** A 2xx body that decodes to something else than an array: an empty
    object and an empty string iterate to nothing and give the empty
    list; a non-empty object iterates to its keys and a non-empty
    string to its characters, which are no mappings, so the route
    raises 500; null, a boolean and a number are not iterable, and the
    route raises 500 naming the type. *)
Theorem get_users_non_array_body `{Libraries} (settings : config.Settings)
    (client : AsyncClient) (r : httpx.Response) :
  client 5.0%Q (users_url settings) = Responds r ->
  httpx.is_success r = true ->
  (httpx.json_ r = inr (JDict ∅) -> users.get_users settings client = Return []) /\
  (httpx.json_ r = inr (JStr "") -> users.get_users settings client = Return []) /\
  (forall d, httpx.json_ r = inr (JDict d) -> d <> ∅ ->
     exists k, is_Some (d !! k) /\
       users.get_users settings client =
         Raise (fastapi.mkHTTPException 500
                  ("Internal error: " +:+ str_kwargs_TypeError (JStr k)))) /\
  (forall c s, httpx.json_ r = inr (JStr (String c s)) ->
     users.get_users settings client =
       Raise (fastapi.mkHTTPException 500
                ("Internal error: " +:+ str_kwargs_TypeError (JStr (String c EmptyString))))) /\
  (forall v, httpx.json_ r = inr v -> scalar v ->
     users.get_users settings client =
       Raise (fastapi.mkHTTPException 500
                ("Internal error: '" +:+ py_type v +:+ "' object is not iterable"))).
Proof.
  intros Hc Hs. rewrite (get_users_try settings client r Hc Hs).
  unfold decode_users, json_of.
  split; [|split; [|split; [|split]]].
  - intros ->. reflexivity.
  - intros ->. reflexivity.
  - intros d -> Hne. cbn [bind iter].
    destruct (map_to_list d) as [|[k x] rest] eqn:Hl.
    + apply map_to_list_empty_iff in Hl. contradiction.
    + exists k. split.
      * exists x. apply elem_of_map_to_list. rewrite Hl. left.
      * reflexivity.
  - intros c s ->. reflexivity.
  - intros v -> Hv. destruct v; try contradiction; reflexivity.
Qed.

Lemma get_users_non_array_body_witness :
  users.get_users (H := sample_libraries) config.settings
    (always (Responds (httpx.mkResponse 200 "null" (inr JNull)))) =
    Raise (fastapi.mkHTTPException 500 "Internal error: 'NoneType' object is not iterable").
Proof.
  exact (proj2 (proj2 (proj2 (proj2
           (get_users_non_array_body (H := sample_libraries) config.settings
              (always (Responds (httpx.mkResponse 200 "null" (inr JNull))))
              (httpx.mkResponse 200 "null" (inr JNull)) eq_refl eq_refl))))
           JNull eq_refl I).
Defined.

(** ** Reading the health status back *)

(** The status string tells the case: it is connected only after an
    upstream 200, it starts with unhealthy only after another status,
    with unreachable only after a failed request, and with error only
    after another exception, whatever the exception's class name. *)
Theorem health_status_tells_the_case (settings : config.Settings) (client : AsyncClient) :
  (models.data_service_status (health.health_check settings client) = Some "connected" <->
   in_health_case (client 2.0%Q (health_url settings)) Connected) /\
  ((exists s, models.data_service_status (health.health_check settings client)
              = Some ("unhealthy (status: " +:+ s)) <->
   in_health_case (client 2.0%Q (health_url settings)) Unhealthy) /\
  ((exists s, models.data_service_status (health.health_check settings client)
              = Some ("unreachable (" +:+ s)) <->
   in_health_case (client 2.0%Q (health_url settings)) Unreachable) /\
  ((exists s, models.data_service_status (health.health_check settings client)
              = Some ("error (" +:+ s)) <->
   in_health_case (client 2.0%Q (health_url settings)) Errored).
Proof.
  rewrite health_check_status.
  destruct (client 2.0%Q (health_url settings)) as [r|e|cls msg]; simpl.
  - destruct (Z.eqb_spec (httpx.status_code r) 200) as [E|N].
    + repeat split; try (intros [s Hs]; discriminate Hs);
        try (intros (? & [= <-] & ?); contradiction);
        try (intros (? & ? & [=])); try (intros (? & [=])); eauto.
    + repeat split; try discriminate; try (intros [s Hs]; discriminate Hs);
        try (intros (? & [= <-] & ?); contradiction);
        try (intros (? & ? & [=])); try (intros (? & [=])); eauto.
  - repeat split; try discriminate; try (intros [s Hs]; destruct e; discriminate Hs);
      try (intros (? & [=] & ?)); try (intros (? & ? & [=])); eauto.
  - repeat split; try discriminate; try (intros [s Hs]; discriminate Hs);
      try (intros (? & [=] & ?)); try (intros (? & ? & [=])); try (intros (? & [=])); eauto.
Qed.

(** The initial value of data_service_status never reaches the caller:
    the field is always set, and never to unknown. *)
Theorem health_status_never_unknown (settings : config.Settings) (client : AsyncClient) :
  exists s,
    models.data_service_status (health.health_check settings client) = Some s /\
    s <> "unknown".
Proof.
  rewrite health_check_status. eexists. split; [reflexivity|].
  destruct (client 2.0%Q (health_url settings)) as [r|e|cls msg].
  - destruct (httpx.status_code r =? 200); discriminate.
  - destruct e; discriminate.
  - discriminate.
Qed.

(** ** The upstream URLs *)

Lemma append_cancel_l (p a b : string) : p +:+ a = p +:+ b -> a = b.
Proof. induction p as [|c p IH]; simpl; [auto | intros [= Heq]; auto]. Qed.

(** Two ids are asked of the upstream under the same URL only when they
    are the same id, and no id is asked under the URL of the list. *)
Theorem user_url_injective (settings : config.Settings) (i j : Z) :
  (user_url settings i = user_url settings j <-> i = j) /\
  user_url settings i <> users_url settings.
Proof.
  unfold user_url, users_url. split; [split|].
  - intros Heq. apply append_cancel_l in Heq. simpl in Heq.
    injection Heq as Heq. exact (pretty_Z_inj i j Heq).
  - intros ->. reflexivity.
  - intros Heq. apply append_cancel_l in Heq. discriminate Heq.
Qed.

(** ** Telling a failed request from an upstream 503 *)

Lemma detail_of_upstream_error r s :
  detail_of (fastapi.http_exception_handler (upstream_error r))
    <> Some ("Data service unavailable: " +:+ s).
Proof.
  unfold fastapi.http_exception_handler.
  destruct (fastapi.is_body_allowed_for_status_code _); discriminate.
Qed.

(** Both answers have status 503, and the detail tells them apart: it
    starts with Data service unavailable exactly when the request to
    the upstream failed; an upstream that answers 503 itself is
    reported with a detail that starts with Data service error. *)
Theorem unavailable_detail_iff `{Libraries} (settings : config.Settings)
    (client : AsyncClient) (user_id : Z) :
  ((exists s, detail_of (users.route_users settings client)
              = Some ("Data service unavailable: " +:+ s)) <->
   exists e, client 5.0%Q (users_url settings) = Fails e) /\
  ((exists s, detail_of (users.route_user settings client user_id)
              = Some ("Data service unavailable: " +:+ s)) <->
   exists e, client 5.0%Q (user_url settings user_id) = Fails e) /\
  (forall r, client 5.0%Q (users_url settings) = Responds r ->
             httpx.status_code r = 503 ->
             detail_of (users.route_users settings client)
               = Some ("Data service error: " +:+ httpx.text r)) /\
  (forall r, client 5.0%Q (user_url settings user_id) = Responds r ->
             httpx.status_code r = 503 ->
             detail_of (users.route_user settings client user_id)
               = Some ("Data service error: " +:+ httpx.text r)).
Proof.
  split; [|split; [|split]].
  - split.
    + intros [s Hd]. unfold users.route_users in Hd.
      destruct (client 5.0%Q (users_url settings)) as [r|e|cls msg] eqn:Hc; [| eauto |].
      * exfalso. destruct (httpx.is_success r) eqn:Hs.
        -- destruct (decode_users r) as [us|e] eqn:Hdec.
           ++ rewrite (get_users_Return settings client r us Hc Hs Hdec) in Hd.
              discriminate Hd.
           ++ destruct (get_users_internal settings client r e Hc Hs Hdec)
                as (_ & msg & _ & Hg).
              rewrite Hg in Hd. discriminate Hd.
        -- rewrite (get_users_error_status settings client r Hc Hs) in Hd.
           exact (detail_of_upstream_error r s Hd).
      * rewrite (get_users_Crashes settings client cls msg Hc) in Hd. discriminate Hd.
    + intros [e Hc]. exists (httpx.type_name e). unfold users.route_users.
      rewrite (get_users_Fails settings client e Hc). reflexivity.
  - split.
    + intros [s Hd]. unfold users.route_user in Hd.
      destruct (client 5.0%Q (user_url settings user_id)) as [r|e|cls msg] eqn:Hc;
        [| eauto |].
      * exfalso. destruct (httpx.is_success r) eqn:Hs.
        -- destruct (decode_user r) as [u|e] eqn:Hdec.
           ++ rewrite (get_user_Return settings client user_id r u Hc Hs Hdec) in Hd.
              discriminate Hd.
           ++ destruct (get_user_internal settings client user_id r e Hc Hs Hdec)
                as (_ & msg & _ & Hg).
              rewrite Hg in Hd. discriminate Hd.
        -- destruct (Z.eq_dec (httpx.status_code r) 404) as [H404|Hn].
           ++ rewrite (get_user_404 settings client user_id r Hc H404) in Hd.
              discriminate Hd.
           ++ rewrite (get_user_error_status settings client user_id r Hc Hs Hn) in Hd.
              exact (detail_of_upstream_error r s Hd).
      * rewrite (get_user_Crashes settings client user_id cls msg Hc) in Hd.
        discriminate Hd.
    + intros [e Hc]. exists (httpx.type_name e). unfold users.route_user.
      rewrite (get_user_Fails settings client user_id e Hc). reflexivity.
  - intros r Hc H503. unfold users.route_users.
    rewrite (get_users_error_status settings client r Hc (not_success_503 r H503)).
    apply detail_of_handler. simpl. rewrite H503. reflexivity.
  - intros r Hc H503. unfold users.route_user.
    rewrite (get_user_error_status settings client user_id r Hc (not_success_503 r H503))
      by (rewrite H503; discriminate).
    apply detail_of_handler. simpl. rewrite H503. reflexivity.
Qed.
